(** * Thread-aware hashing load balancer (thread_aware_lb_impl.h)

    A shallow embedding of the declarations of
    [source/common/upstream/thread_aware_lb_impl.h]: the hash-key helper of
    [HashingLoadBalancer], the bounded-load decorator, the per-priority
    state, the worker-local load balancer and its factory, and the
    cross-priority host map of [ThreadAwareLoadBalancerBase]; and of the
    file-based key value store of
    [source/extensions/key_value/file_based/config.cc]. *)

From Stdlib Require Import ZArith NArith QArith Qminmax String Ascii List Lia.
From Stdlib Require Import Decimal DecimalString DecimalNat.
From stdpp Require Import gmap strings list fin_maps.
From Equations Require Import Equations.

Set Warnings "-register-all".

Local Open Scope string_scope.
Local Open Scope nat_scope.

(** ** Machine integers *)

(** [uint32_t] and [uint64_t] values are naturals below the modulus. *)
Definition UINT32_MODULUS : N := (2 ^ 32)%N.

(** [attempt + 1] on a [uint32_t]: unsigned arithmetic wraps around. *)
Definition uint32_succ (n : N) : N := ((n + 1) mod UINT32_MODULUS)%N.

(** ** Hosts and their metadata *)

(** [ProtobufWkt::Value::KindCase]. *)
Inductive KindCase : Type :=
| KIND_NOT_SET
| kNullValue
| kNumberValue
| kStringValue
| kBoolValue
| kStructValue
| kListValue.

#[global] Instance KindCase_eq_dec : EqDecision KindCase.
Proof. solve_decision. Defined.

(** [ProtobufWkt::Value]: a tagged union; the default instance has no kind
    set. Nested structures are kept as association lists. *)
Inductive Value : Type :=
| ValueNotSet
| NullValue
| NumberValue (number_value : Q)
| StringValue (string_value : string)
| BoolValue (bool_value : bool)
| StructValue (fields : list (string * Value))
| ListValue (values : list Value).

Definition kind_case (val : Value) : KindCase :=
  match val with
  | ValueNotSet => KIND_NOT_SET
  | NullValue => kNullValue
  | NumberValue _ => kNumberValue
  | StringValue _ => kStringValue
  | BoolValue _ => kBoolValue
  | StructValue _ => kStructValue
  | ListValue _ => kListValue
  end.

(** The protobuf accessor [string_value()]: the string when the kind is
    [kStringValue], the empty string for every other kind. *)
Definition string_value (val : Value) : string :=
  match val with
  | StringValue s => s
  | _ => ""
  end.

(** [envoy::config::core::v3::Metadata]: filter name to a [Struct], a
    [Struct] being a map from field name to [Value]. *)
Record Metadata : Type := mkMetadata {
  filter_metadata : gmap string (gmap string Value)
}.

(** The pointee of a [HostConstSharedPtr], as far as [hashKey] reads it.
    [metadata] is the shared pointer returned by [host->metadata()], which
    may be null; [address_asString] is [host->address()->asString()]. *)
Record Host : Type := mkHost {
  metadata : option Metadata;
  hostname : string;
  address_asString : string
}.

(** Modelled from the spec: the well-known names
    [Config::MetadataFilters::get().ENVOY_LB] and
    [Config::MetadataEnvoyLbKeys::get().HASH_KEY] (well_known_names.h is
    missing): the reserved metadata namespace and key of the per-host
    hash-key override. *)
Definition ENVOY_LB : string := "envoy.lb".
Definition HASH_KEY : string := "hash_key".

(** Modelled from the spec: [Config::Metadata::metadataValue] (metadata.h
    is missing): the single entry stored under a metadata namespace and
    key, or the default [Value] (no kind set) when the metadata, the
    namespace or the key is missing. *)
Definition metadataValue (md : option Metadata) (filter key : string) : Value :=
  match md with
  | None => ValueNotSet
  | Some m =>
      match filter_metadata m !! filter with
      | None => ValueNotSet
      | Some st => default ValueNotSet (st !! key)
      end
  end.

(** ** Logging *)

Inductive LogLevel : Type := trace | debug | info | warn | error | critical.

(** One [FANCY_LOG] record: level, format string and the formatted
    argument. *)
Record LogEntry : Type := mkLogEntry {
  log_level : LogLevel;
  log_format : string;
  log_arg : KindCase
}.

(** A computation that also appends to the log. *)
Definition Logged (A : Type) : Type := A * list LogEntry.

Definition ret {A} (a : A) : Logged A := (a, []).
Definition bind {A B} (c : Logged A) (k : A → Logged B) : Logged B :=
  let (a, l1) := c in let (b, l2) := k a in (b, (l1 ++ l2)%list).
Definition FANCY_LOG (lvl : LogLevel) (fmt : string) (arg : KindCase) : Logged unit :=
  (tt, [mkLogEntry lvl fmt arg]).

Notation "c1 ;;; c2" := (bind c1 (λ _, c2)) (at level 100, right associativity).

(** ** Hashing tables *)

(** A [HostConstSharedPtr] is the identity of a shared host object; a
    nullable pointer is an [option]. *)
Abbreviation HostConstSharedPtr := positive (only parsing).

(** [NormalizedHostWeightVector] and [NormalizedHostWeightMap]; a [double]
    weight is a rational. *)
Abbreviation NormalizedHostWeightVector := (list (positive * Q)) (only parsing).
Abbreviation NormalizedHostWeightMap := (gmap positive Q) (only parsing).

(** ** HashingLoadBalancer *)

Definition string_empty (s : string) : bool :=
  match s with
  | EmptyString => true
  | String _ _ => false
  end.

Module HashingLoadBalancer.

(** The interface: an object with the pure virtual method
    [chooseHost(hash, attempt)], a [uint64_t] and a [uint32_t]; a null
    result is [None]. *)
Record t : Type := mk {
  chooseHost : N → N → option HostConstSharedPtr
}.

(** [hashKey(host, use_hostname)], lines 34-46. *)
Definition hashKey (host : Host) (use_hostname : bool) : Logged string :=
  let val := metadataValue (metadata host) ENVOY_LB HASH_KEY in
  (if bool_decide (kind_case val ≠ kStringValue) && bool_decide (kind_case val ≠ KIND_NOT_SET)
   then FANCY_LOG debug "hash_key must be string type, got: {}" (kind_case val)
   else ret tt) ;;;
  let hash_key := string_value val in
  let hash_key :=
    if string_empty hash_key
    then (if use_hostname then hostname host else address_asString host)
    else hash_key in
  ret hash_key.

End HashingLoadBalancer.

(** *** The hash key as the specification words it *)

(** The per-host override: the single entry under the reserved metadata
    namespace and key, when the host has one. *)
Definition hash_key_override (host : Host) : option Value :=
  m ← metadata host; st ← filter_metadata m !! "envoy.lb"; st !! "hash_key".

(** Without a usable override: the hostname when hostnames are preferred,
    else the network address string. *)
Definition hashKey_fallback (host : Host) (use_hostname : bool) : string :=
  if use_hostname then hostname host else address_asString host.

(** In priority order: the override when it is a non-empty string, then
    the hostname, then the address. *)
Definition hashKey_by_priority (host : Host) (use_hostname : bool) : string :=
  match hash_key_override host with
  | Some (StringValue s) => if decide (s = "") then hashKey_fallback host use_hostname else s
  | _ => hashKey_fallback host use_hostname
  end.

(** ** BoundedLoadHashingLoadBalancer *)

Module BoundedLoadHashingLoadBalancer.

(** The members of the class, lines 71-84. [hostOverloadFactor] is a
    virtual method, kept as a field: the load it reads from the host's
    statistics is the load observed during one call. *)
Record t : Type := mk {
  normalized_host_weights_map_ : NormalizedHostWeightMap;
  hashing_lb_ptr_ : HashingLoadBalancer.t;
  normalized_host_weights_ : NormalizedHostWeightVector;
  hash_balance_factor_ : N;
  hostOverloadFactor : HostConstSharedPtr → Q → Q
}.

(** [initNormalizedHostWeightMap], lines 74-81: the loop assigns
    [map[item.first] = item.second] for each item in order. *)
Definition initNormalizedHostWeightMap
    (normalized_host_weights : NormalizedHostWeightVector) : NormalizedHostWeightMap :=
  fold_left (λ normalized_host_weights_map item, <[item.1 := item.2]> normalized_host_weights_map)
            normalized_host_weights ∅.

(** The two [ASSERT]s of the constructor, lines 64-65: checked in debug
    builds only. The inner pointer is not null here by its type. *)
Definition new_ASSERT (hash_balance_factor : N) : bool := (0 <? hash_balance_factor)%N.

(** The constructor, lines 57-66: the member initialisers. *)
Definition new (hashing_lb_ptr : HashingLoadBalancer.t)
    (normalized_host_weights : NormalizedHostWeightVector)
    (hash_balance_factor : N) (overload : HostConstSharedPtr → Q → Q) : t :=
  {| normalized_host_weights_map_ := initNormalizedHostWeightMap normalized_host_weights;
     hashing_lb_ptr_ := hashing_lb_ptr;
     normalized_host_weights_ := normalized_host_weights;
     hash_balance_factor_ := hash_balance_factor;
     hostOverloadFactor := overload |}.

(** Modelled from the spec: the body of [chooseHost] (line 67 declares
    it; thread_aware_lb_impl.cc is missing), after section 4.2.

    The probe bound is the number of distinct hosts, the size of the
    weight map. *)
Definition max_probes (lb : t) : nat := size (normalized_host_weights_map_ lb).

(** Modelled from the spec: the normalized weight [w(h)] of a candidate,
    looked up in the weight map; a host the map does not know has no
    share. *)
Definition weight_of (lb : t) (host : HostConstSharedPtr) : Q :=
  default 0%Q (normalized_host_weights_map_ lb !! host).

(** Modelled from the spec: steps (2) and (3). A candidate is rejected
    when its overload factor exceeds 1.0; with factor 100 bounding is
    disabled and no candidate is rejected. *)
Definition overloaded (lb : t) (candidate : HostConstSharedPtr) : bool :=
  negb (hash_balance_factor_ lb =? 100)%N
  && negb (Qle_bool (hostOverloadFactor lb candidate (weight_of lb candidate)) 1).

(** Modelled from the spec: the overload factor of step (2), current load
    over allowed capacity, the capacity being the host's weighted share
    [w(h) * F] of the load in flight; the request counters are the ones
    observed during the call. *)
Definition spec_hostOverloadFactor (rq_active : HostConstSharedPtr → N) (overall_active : N)
    (hash_balance_factor : N) (host : HostConstSharedPtr) (weight : Q) : Q :=
  (inject_Z (Z.of_N (rq_active host))
   / (inject_Z (Z.of_N overall_active) * weight * (inject_Z (Z.of_N hash_balance_factor) / 100)))%Q.

(** What the re-probe loop ends with, and after how many probes of the
    inner table. *)
Inductive ProbeOutcome : Type :=
| Selected (candidate : HostConstSharedPtr) (probes : nat)
| NoCandidate (probes : nat)
| Exhausted (probes : nat).

Definition probes_of (o : ProbeOutcome) : nat :=
  match o with
  | Selected _ n | NoCandidate n | Exhausted n => n
  end.

(** Modelled from the spec: steps (1) to (4), the loop
    [while (probes < max_probes)]: ask the inner table for the candidate
    of [attempt], return it when it is within capacity, otherwise
    increment [attempt] and repeat. The inner table may answer absent:
    there is no candidate to measure then, and the loop ends with no
    candidate. *)
Equations? reprobe (lb : t) (hash attempt : N) (probes : nat) : ProbeOutcome
    by wf (max_probes lb - probes) lt :=
  reprobe lb hash attempt probes with decide (probes < max_probes lb) := {
    | right _ := Exhausted probes
    | left _ with HashingLoadBalancer.chooseHost (hashing_lb_ptr_ lb) hash attempt := {
      | None := NoCandidate (S probes)
      | Some candidate with overloaded lb candidate := {
        | false := Selected candidate (S probes)
        | true := reprobe lb hash (uint32_succ attempt) (S probes) } } }.
Proof. lia. Qed.

(** Modelled from the spec: [chooseHost(hash, attempt)], steps (1) to
    (5): the candidate the loop selected; the candidate of attempt 0 as a
    last resort when every probe up to the bound was overloaded; and
    absent when the inner table answered absent, as the explicit absent
    result of a selection that found no host. *)
Definition chooseHost (lb : t) (hash attempt : N) : option HostConstSharedPtr :=
  match reprobe lb hash attempt 0 with
  | Selected candidate _ => Some candidate
  | NoCandidate _ => None
  | Exhausted _ => HashingLoadBalancer.chooseHost (hashing_lb_ptr_ lb) hash 0
  end.

(** The attempt number of the probe that follows [k] rejections. *)
Definition attempt_after (k : nat) (attempt : N) : N := Nat.iter k uint32_succ attempt.

(** The decorator is itself a [HashingLoadBalancer] (public base). *)
Definition as_HashingLoadBalancer (lb : t) : HashingLoadBalancer.t :=
  HashingLoadBalancer.mk (chooseHost lb).

End BoundedLoadHashingLoadBalancer.

(** ** Results of calls that may not return *)

(** A call returns a value or ends the process. *)
Inductive Outcome (A : Type) : Type :=
| Returns (a : A)
| Panics (reason : string).
Arguments Returns {A} a.
Arguments Panics {A} reason.

(** Modelled from the spec: the macro [NOT_IMPLEMENTED_GCOVR_EXCL_LINE]
    (assert.h is missing): an unconditional failure, no value is
    returned. *)
Definition NOT_IMPLEMENTED_GCOVR_EXCL_LINE {A : Type} : Outcome A := Panics "not implemented".

(** ** Mutexes and calls that take them *)

Inductive Mutex : Type := Unlocked | Locked.

(** A call on an object of state [S]: the result and the new state, or
    [None] when the call waits for a mutex that is held. *)
Definition Call (S A : Type) : Type := S → option (A * S).

Definition call_ret {S A} (a : A) : Call S A := λ s, Some (a, s).
Definition call_bind {S A B} (c : Call S A) (k : A → Call S B) : Call S B :=
  λ s, match c s with
       | Some (a, s') => k a s'
       | None => None
       end.
Definition call_get {S A} (f : S → A) : Call S A := λ s, Some (f s, s).
Definition call_modify {S} (f : S → S) : Call S unit := λ s, Some (tt, f s).

Notation "'call' x <- c ;; k" := (call_bind c (λ x, k))
  (at level 10, x name, c at level 99, k at level 200).
Notation "'exec' c ;; k" := (call_bind c (λ _, k))
  (at level 10, c at level 99, k at level 200).

(** [absl::MutexLock ml(&mu)] around [body]: acquire at the declaration,
    release when the scope ends. *)
Definition MutexLock {S A} (mu : S → Mutex) (set_mu : Mutex → S → S) (body : Call S A) : Call S A :=
  λ s, match mu s with
       | Locked => None
       | Unlocked =>
           match body (set_mu Locked s) with
           | Some (a, s') => Some (a, set_mu Unlocked s')
           | None => None
           end
       end.

(** ** Per-priority state, worker load balancer, factory *)

(** [HealthyLoad] and [DegradedLoad]: a percentage per priority. *)
Abbreviation HealthyLoad := (list N) (only parsing).
Abbreviation DegradedLoad := (list N) (only parsing).

(** [HostMap]: host address to host, across all priorities. *)
Abbreviation HostMap := (gmap string positive) (only parsing).
Abbreviation HostMapConstSharedPtr := (option (gmap string positive)) (only parsing).

(** Modelled from the spec: [LoadBalancerContext] (load_balancer.h is
    missing): the request context supplies a precomputed 64-bit hash. *)
Record LoadBalancerContext : Type := mkLoadBalancerContext {
  computeHashKey : N
}.

(** [struct PerPriorityState], lines 104-107. *)
Record PerPriorityState : Type := mkPerPriorityState {
  current_lb_ : option HashingLoadBalancer.t;
  global_panic_ : bool
}.

Module LoadBalancerImpl.

(** [struct LoadBalancerImpl], lines 110-128; the references [stats_] and
    [random_] are left out. *)
Record t : Type := mk {
  per_priority_state_ : option (list PerPriorityState);
  healthy_per_priority_load_ : option HealthyLoad;
  degraded_per_priority_load_ : option DegradedLoad;
  cross_priority_host_map_ : HostMapConstSharedPtr
}.

(** The constructor, lines 111-113: only the host map is initialised. *)
Definition new (host_map : HostMapConstSharedPtr) : t :=
  {| per_priority_state_ := None;
     healthy_per_priority_load_ := None;
     degraded_per_priority_load_ := None;
     cross_priority_host_map_ := host_map |}.

(** [peekAnotherHost], line 118. *)
Definition peekAnotherHost (lb : t) (context : option LoadBalancerContext)
  : option HostConstSharedPtr := None.

(** Modelled from the spec: the hash a selection works with: the
    precomputed hash the context supplies. For a null context, which the
    spec leaves open, it is a value drawn from [random_], the generator
    the worker holds (line 121). *)
Definition hash_of (random : N) (context : option LoadBalancerContext) : N :=
  match context with
  | Some c => computeHashKey c
  | None => random
  end.

(** Modelled from the spec: the body of [chooseHost] (line 116 declares
    it; thread_aware_lb_impl.cc is missing), after sections 4.3 and 7.
    The priority is chosen by the inherited [choosePriority] over the
    captured load vectors. When that priority's state has the panic flag
    set or a null table the call yields no host; otherwise it delegates
    to the table with attempt 0. The call never raises: a state that is
    not there is no host as well. *)
Definition chooseHost (choosePriority : N → list N → list N → nat) (random : N)
    (lb : t) (context : option LoadBalancerContext) : Outcome (option HostConstSharedPtr) :=
  let hash := hash_of random context in
  let priority :=
    choosePriority hash (default [] (healthy_per_priority_load_ lb))
                   (default [] (degraded_per_priority_load_ lb)) in
  match states ← per_priority_state_ lb; states !! priority with
  | Some state =>
      if global_panic_ state then Returns None
      else match current_lb_ state with
           | Some table => Returns (HashingLoadBalancer.chooseHost table hash 0)
           | None => Returns None
           end
  | None => Returns None
  end.

End LoadBalancerImpl.

Module LoadBalancerFactoryImpl.

(** [struct LoadBalancerFactoryImpl], lines 130-147; the three shared
    pointers are guarded by [mutex_]. *)
Record t : Type := mk {
  mutex_ : Mutex;
  per_priority_state_ : option (list PerPriorityState);
  healthy_per_priority_load_ : option HealthyLoad;
  degraded_per_priority_load_ : option DegradedLoad
}.

Definition set_mutex_ (mu : Mutex) (f : t) : t :=
  {| mutex_ := mu;
     per_priority_state_ := per_priority_state_ f;
     healthy_per_priority_load_ := healthy_per_priority_load_ f;
     degraded_per_priority_load_ := degraded_per_priority_load_ f |}.

Definition set_per_priority_state_ (v : option (list PerPriorityState)) (f : t) : t :=
  {| mutex_ := mutex_ f;
     per_priority_state_ := v;
     healthy_per_priority_load_ := healthy_per_priority_load_ f;
     degraded_per_priority_load_ := degraded_per_priority_load_ f |}.

Definition set_healthy_per_priority_load_ (v : option HealthyLoad) (f : t) : t :=
  {| mutex_ := mutex_ f;
     per_priority_state_ := per_priority_state_ f;
     healthy_per_priority_load_ := v;
     degraded_per_priority_load_ := degraded_per_priority_load_ f |}.

Definition set_degraded_per_priority_load_ (v : option DegradedLoad) (f : t) : t :=
  {| mutex_ := mutex_ f;
     per_priority_state_ := per_priority_state_ f;
     healthy_per_priority_load_ := healthy_per_priority_load_ f;
     degraded_per_priority_load_ := v |}.

(** The constructor, lines 131-133. *)
Definition new : t :=
  {| mutex_ := Unlocked;
     per_priority_state_ := None;
     healthy_per_priority_load_ := None;
     degraded_per_priority_load_ := None |}.

End LoadBalancerFactoryImpl.

(** ** Priority sets *)

(** Modelled from the spec: a priority level's [HostSet] (upstream.h is
    missing): its hosts partitioned by health status. *)
Record HostSet : Type := mkHostSet {
  hosts : list HostConstSharedPtr;
  healthyHosts : list HostConstSharedPtr;
  degradedHosts : list HostConstSharedPtr
}.

Module ThreadAwareLoadBalancerBase.

(** The members of [ThreadAwareLoadBalancerBase], lines 163-176, with what
    the class reads of its base [LoadBalancerBase]: the priority set, the
    hosts' weights and the per-priority load. [createLoadBalancer] is pure
    virtual (lines 149-151) and kept as a field; it returns a table.
    [hash_balance_factor] is the configured bounded-load factor, absent
    when not configured, and [hostOverloadFactor] the overload function
    handed to the decorator. *)
Record t : Type := mk {
  priority_set_ : list HostSet;
  host_weight : HostConstSharedPtr → N;
  per_priority_load_ : HealthyLoad * DegradedLoad;
  hash_balance_factor : option N;
  hostOverloadFactor : HostConstSharedPtr → Q → Q;
  createLoadBalancer : NormalizedHostWeightVector → Q → Q → HashingLoadBalancer.t;
  factory_ : LoadBalancerFactoryImpl.t;
  cross_priority_host_map_mutex_ : Mutex;
  cross_priority_host_map_ : HostMapConstSharedPtr
}.

Definition set_factory_ (f : LoadBalancerFactoryImpl.t) (lb : t) : t :=
  {| priority_set_ := priority_set_ lb;
     host_weight := host_weight lb;
     per_priority_load_ := per_priority_load_ lb;
     hash_balance_factor := hash_balance_factor lb;
     hostOverloadFactor := hostOverloadFactor lb;
     createLoadBalancer := createLoadBalancer lb;
     factory_ := f;
     cross_priority_host_map_mutex_ := cross_priority_host_map_mutex_ lb;
     cross_priority_host_map_ := cross_priority_host_map_ lb |}.

Definition set_cross_priority_host_map_mutex_ (mu : Mutex) (lb : t) : t :=
  {| priority_set_ := priority_set_ lb;
     host_weight := host_weight lb;
     per_priority_load_ := per_priority_load_ lb;
     hash_balance_factor := hash_balance_factor lb;
     hostOverloadFactor := hostOverloadFactor lb;
     createLoadBalancer := createLoadBalancer lb;
     factory_ := factory_ lb;
     cross_priority_host_map_mutex_ := mu;
     cross_priority_host_map_ := cross_priority_host_map_ lb |}.

Definition set_cross_priority_host_map_ (host_map : HostMapConstSharedPtr) (lb : t) : t :=
  {| priority_set_ := priority_set_ lb;
     host_weight := host_weight lb;
     per_priority_load_ := per_priority_load_ lb;
     hash_balance_factor := hash_balance_factor lb;
     hostOverloadFactor := hostOverloadFactor lb;
     createLoadBalancer := createLoadBalancer lb;
     factory_ := factory_ lb;
     cross_priority_host_map_mutex_ := cross_priority_host_map_mutex_ lb;
     cross_priority_host_map_ := host_map |}.

(** [factory()], line 87. *)
Definition factory (lb : t) : LoadBalancerFactoryImpl.t := factory_ lb.

(** [chooseHost], line 91; the context pointer may be null. *)
Definition chooseHost (lb : t) (context : option LoadBalancerContext)
  : Outcome (option HostConstSharedPtr) := NOT_IMPLEMENTED_GCOVR_EXCL_LINE.

(** [peekAnotherHost], line 93. *)
Definition peekAnotherHost (lb : t) (context : option LoadBalancerContext)
  : option HostConstSharedPtr := None.

(** [threadSafeSetCrossPriorityHostMap(host_map)], lines 154-157. *)
Definition threadSafeSetCrossPriorityHostMap (host_map : HostMapConstSharedPtr) : Call t unit :=
  MutexLock cross_priority_host_map_mutex_ set_cross_priority_host_map_mutex_
    (call_modify (set_cross_priority_host_map_ host_map)).

(** [threadSafeGetCrossPriorityHostMap()], lines 158-161. *)
Definition threadSafeGetCrossPriorityHostMap : Call t HostMapConstSharedPtr :=
  MutexLock cross_priority_host_map_mutex_ set_cross_priority_host_map_mutex_
    (call_get cross_priority_host_map_).

(** Modelled from the spec: the body of [refresh()] (line 152 declares
    it; thread_aware_lb_impl.cc is missing), after section 4.1.

    The eligible host set of a priority level, by the healthy, then
    degraded, then all-hosts fallback. *)
Definition eligible_hosts (host_set : HostSet) : list HostConstSharedPtr :=
  match healthyHosts host_set with
  | _ :: _ => healthyHosts host_set
  | [] =>
      match degradedHosts host_set with
      | _ :: _ => degradedHosts host_set
      | [] => hosts host_set
      end
  end.

Definition N_to_Q (n : N) : Q := inject_Z (Z.of_N n).

(** Modelled from the spec: weights normalized to sum to 1 over the
    eligible hosts. *)
Definition normalize (lb : t) (eligible : list HostConstSharedPtr) : NormalizedHostWeightVector :=
  let sum := foldr (λ host acc, (host_weight lb host + acc)%N) 0%N eligible in
  map (λ host, (host, (N_to_Q (host_weight lb host) / N_to_Q sum)%Q)) eligible.

(** Modelled from the spec: the observed minimum and maximum normalized
    weight. *)
Definition min_normalized_weight (normalized_host_weights : NormalizedHostWeightVector) : Q :=
  foldr (λ item acc, Qmin item.2 acc) 1%Q normalized_host_weights.
Definition max_normalized_weight (normalized_host_weights : NormalizedHostWeightVector) : Q :=
  foldr (λ item acc, Qmax item.2 acc) 0%Q normalized_host_weights.

(** Modelled from the spec: bounding is configured when the factor is
    present and not 100. *)
Definition bounding_configured (lb : t) : option N :=
  match hash_balance_factor lb with
  | Some factor => if (factor =? 100)%N then None else Some factor
  | None => None
  end.

(** Modelled from the spec: the table is wrapped in the bounded-load
    decorator when bounding is configured. *)
Definition decorate (lb : t) (table : HashingLoadBalancer.t)
    (normalized_host_weights : NormalizedHostWeightVector) : HashingLoadBalancer.t :=
  match bounding_configured lb with
  | Some factor =>
      BoundedLoadHashingLoadBalancer.as_HashingLoadBalancer
        (BoundedLoadHashingLoadBalancer.new table normalized_host_weights factor
           (hostOverloadFactor lb))
  | None => table
  end.

(** Modelled from the spec: the state recorded for one priority level:
    no table and panic when there is no eligible host, otherwise the
    table built by [createLoadBalancer], decorated, and no panic. *)
Definition rebuild (lb : t) (host_set : HostSet) : PerPriorityState :=
  let normalized_host_weights := normalize lb (eligible_hosts host_set) in
  match normalized_host_weights with
  | [] => {| current_lb_ := None; global_panic_ := true |}
  | _ :: _ =>
      {| current_lb_ :=
           Some (decorate lb
                   (createLoadBalancer lb normalized_host_weights
                      (min_normalized_weight normalized_host_weights)
                      (max_normalized_weight normalized_host_weights))
                   normalized_host_weights);
         global_panic_ := false |}
  end.

Definition factory_mutex_ (lb : t) : Mutex := LoadBalancerFactoryImpl.mutex_ (factory_ lb).
Definition set_factory_mutex_ (mu : Mutex) (lb : t) : t :=
  set_factory_ (LoadBalancerFactoryImpl.set_mutex_ mu (factory_ lb)) lb.
Definition modify_factory_ (f : LoadBalancerFactoryImpl.t → LoadBalancerFactoryImpl.t) : Call t unit :=
  call_modify (λ lb, set_factory_ (f (factory_ lb)) lb).

(** Modelled from the spec: [refresh()]: rebuild every priority level
    outside the lock, then publish the per-priority array and the two
    load vectors under the factory's mutex. *)
Definition refresh : Call t unit :=
  call lb <- call_get (λ lb, lb) ;;
  let per_priority_state_vector := map (rebuild lb) (priority_set_ lb) in
  let healthy_per_priority_load := (per_priority_load_ lb).1 in
  let degraded_per_priority_load := (per_priority_load_ lb).2 in
  MutexLock factory_mutex_ set_factory_mutex_
    (exec modify_factory_
            (LoadBalancerFactoryImpl.set_healthy_per_priority_load_ (Some healthy_per_priority_load)) ;;
     exec modify_factory_
            (LoadBalancerFactoryImpl.set_degraded_per_priority_load_ (Some degraded_per_priority_load)) ;;
     modify_factory_
       (LoadBalancerFactoryImpl.set_per_priority_state_ (Some per_priority_state_vector))).

(** Modelled from the spec: [LoadBalancerFactoryImpl::create()] (line 136
    declares it), after section 4.3: a worker load balancer built with the
    current cross-priority host map, then, under the factory's mutex, the
    three shared references copied into it. *)
Definition create : Call t LoadBalancerImpl.t :=
  call host_map <- threadSafeGetCrossPriorityHostMap ;;
  let lb := LoadBalancerImpl.new host_map in
  MutexLock factory_mutex_ set_factory_mutex_
    (call f <- call_get factory_ ;;
     call_ret
       {| LoadBalancerImpl.per_priority_state_ := LoadBalancerFactoryImpl.per_priority_state_ f;
          LoadBalancerImpl.healthy_per_priority_load_ := LoadBalancerFactoryImpl.healthy_per_priority_load_ f;
          LoadBalancerImpl.degraded_per_priority_load_ := LoadBalancerFactoryImpl.degraded_per_priority_load_ f;
          LoadBalancerImpl.cross_priority_host_map_ := LoadBalancerImpl.cross_priority_host_map_ lb |}).

End ThreadAwareLoadBalancerBase.

(** ** Sequences of calls on the cross-priority host map *)

(** A call of [threadSafeSetCrossPriorityHostMap] or of
    [threadSafeGetCrossPriorityHostMap]. *)
Inductive HostMapCall : Type :=
| SetHostMap (host_map : option (gmap string positive))
| GetHostMap.

(** The calls made one after the other on the load balancer; the result
    lists what each [GetHostMap] returned. *)
Fixpoint run_host_map_calls (calls : list HostMapCall)
  : Call ThreadAwareLoadBalancerBase.t (list (option (gmap string positive))) :=
  match calls with
  | [] => call_ret []
  | SetHostMap host_map :: rest =>
      exec ThreadAwareLoadBalancerBase.threadSafeSetCrossPriorityHostMap host_map ;;
      run_host_map_calls rest
  | GetHostMap :: rest =>
      call host_map <- ThreadAwareLoadBalancerBase.threadSafeGetCrossPriorityHostMap ;;
      call results <- run_host_map_calls rest ;;
      call_ret (host_map :: results)
  end.

(** The same calls on a single variable holding the map: what the reads
    return, and the final content. *)
Fixpoint register_calls (current : option (gmap string positive)) (calls : list HostMapCall)
  : list (option (gmap string positive)) * option (gmap string positive) :=
  match calls with
  | [] => ([], current)
  | SetHostMap host_map :: rest => register_calls host_map rest
  | GetHostMap :: rest =>
      let (results, final) := register_calls current rest in (current :: results, final)
  end.

(** * File-based key value store (file_based/config.cc) *)

Module FileBasedKeyValueStore.

(** [Filesystem::File::Operation], the members of a [FlagSet]. *)
Inductive Operation : Type := Read | Write | Create | Append.

(** The calls [flush()] makes on the file object, in order. *)
Inductive FileCall : Type :=
| file_open (flags : list Operation)
| file_write (buffer : string)
| file_close.

(** What this file reads of a [Filesystem::File]: whether [open] reports
    success in [return_value_]. *)
Record File : Type := mkFile {
  open_return_value_ : list Operation → bool
}.

(** What this file reads of [Filesystem::Instance]; [createFile] may
    return a null pointer. *)
Record Instance : Type := mkInstance {
  fileExists : string → bool;
  fileReadToEnd : string → string;
  createFile : string → option File
}.

(** One [ENVOY_LOG] record: level, format string, and the file name it is
    formatted with. *)
Record LogRecord : Type := mkLogRecord {
  level : LogLevel;
  format : string;
  arg : string
}.

(** The line feed character of ["\n"]. *)
Definition LF : ascii := ascii_of_nat 10.

(** [absl::StrCat(n, "\n")] for a [size_t]: the decimal digits of [n],
    then a line feed. *)
Definition StrCat_LF (n : nat) : string :=
  NilEmpty.string_of_uint (Nat.to_uint n) ++ String LF "".

(** [DefaultFlags], line 26. *)
Definition DefaultFlags : list Operation := [Write; Create].

(** The constructor, lines 9-23. [store_] is the sequence of pairs the
    store holds, in the order its iteration visits them;
    [parseContents] belongs to the base class and fills the store it is
    handed, returning whether it succeeded. *)
Definition new (file_system_ : Instance) (filename : string)
    (parseContents : string → list (string * string) → bool * list (string * string))
  : list (string * string) * list LogRecord :=
  let store_ := [] in
  if negb (fileExists file_system_ filename)
  then (store_, [mkLogRecord info "File for key value store does not yet exist: {}" filename])
  else
    let contents := fileReadToEnd file_system_ filename in
    let (parsed, store_) := parseContents contents store_ in
    if negb parsed
    then (store_, [mkLogRecord warn "Failed to parse key value store file {}" filename])
    else (store_, []).

(** The body of the loop of [flush()], lines 35-38. *)
Definition flush_entry (it : string * string) : list FileCall :=
  [ file_write (StrCat_LF (String.length it.1));
    file_write it.1;
    file_write (StrCat_LF (String.length it.2));
    file_write it.2 ].

(** [flush()], lines 25-41: the calls made on the file and the records
    logged. A null file makes no call; a failed [open] is the only call
    made on the file. *)
Definition flush (file_system_ : Instance) (filename_ : string) (store_ : list (string * string))
  : list FileCall * list LogRecord :=
  match createFile file_system_ filename_ with
  | None => ([], [mkLogRecord error "Failed to flush cache to file {}" filename_])
  | Some file =>
      if negb (open_return_value_ file DefaultFlags)
      then ([file_open DefaultFlags],
            [mkLogRecord error "Failed to flush cache to file {}" filename_])
      else (file_open DefaultFlags :: flat_map flush_entry store_ ++ [file_close], [])
  end.

(** The bytes handed to [write], in order. *)
Fixpoint written (calls : list FileCall) : string :=
  match calls with
  | [] => ""
  | file_write buffer :: rest => buffer ++ written rest
  | _ :: rest => written rest
  end.

(** *** Reading the written bytes back *)

(** The text before the first line feed, and the text after it. *)
Fixpoint split_LF (s : string) : option (string * string) :=
  match s with
  | EmptyString => None
  | String c rest =>
      if Ascii.eqb c LF then Some ("", rest)
      else match split_LF rest with
           | Some (line, rest') => Some (String c line, rest')
           | None => None
           end
  end.

(** The first [n] bytes, and the text after them. *)
Fixpoint split_bytes (n : nat) (s : string) : option (string * string) :=
  match n with
  | O => Some ("", s)
  | S n' =>
      match s with
      | EmptyString => None
      | String c rest =>
          match split_bytes n' rest with
          | Some (bytes, rest') => Some (String c bytes, rest')
          | None => None
          end
      end
  end.

(** A decimal length line, then that many bytes. *)
Definition read_field (s : string) : option (string * string) :=
  match split_LF s with
  | Some (line, rest) =>
      match NilEmpty.uint_of_string line with
      | Some d => split_bytes (Nat.of_uint d) rest
      | None => None
      end
  | None => None
  end.

(** A key field, then a value field. *)
Definition read_entry (s : string) : option ((string * string) * string) :=
  match read_field s with
  | Some (key, rest) =>
      match read_field rest with
      | Some (value, rest') => Some ((key, value), rest')
      | None => None
      end
  | None => None
  end.

End FileBasedKeyValueStore.

(** ** Example objects *)

(** A host whose [envoy.lb] metadata carries [entry] under [hash_key]. *)
Definition host_with_override (entry : Value) : Host :=
  {| metadata := Some (mkMetadata {[ "envoy.lb" := {[ "hash_key" := entry ]} ]});
     hostname := "backend-1.example";
     address_asString := "10.0.0.1:8080" |}.

(** The host with its hash-key override removed from the metadata. *)
Definition without_override (host : Host) : Host :=
  {| metadata :=
       (λ m, mkMetadata (alter (delete "hash_key") "envoy.lb" (filter_metadata m))) <$> metadata host;
     hostname := hostname host;
     address_asString := address_asString host |}.

(** A table over the hosts 1, 2 and 3 that walks them in order from the
    slot of the hash. *)
Definition example_table : HashingLoadBalancer.t :=
  HashingLoadBalancer.mk
    (λ hash attempt, Some (Pos.of_succ_nat (N.to_nat ((hash + attempt) mod 3)))).

(** A table that knows a single candidate per hash and answers absent for
    every later attempt. *)
Definition single_candidate_table : HashingLoadBalancer.t :=
  HashingLoadBalancer.mk (λ hash attempt, if (attempt =? 0)%N then Some 1%positive else None).

(** Hosts 1, 2 and 3 with weights .5, .3 and .2. *)
Definition example_weights : list (positive * Q) :=
  [(1%positive, 1 # 2); (2%positive, 3 # 10); (3%positive, 1 # 5)].

(** Overload functions: every host over capacity, and host 1 alone over
    capacity. *)
Definition all_overloaded : positive → Q → Q := λ _ _, 2%Q.
Definition first_overloaded : positive → Q → Q :=
  λ host _, if (host =? 1)%positive then (3 # 2) else (1 # 2).

(** Loads of the three hosts out of 100 requests in flight: host 1 holds
    70, above 120% of its half share; hosts 2 and 3 hold 10 and 20. *)
Definition example_rq_active (host : positive) : N :=
  (if (host =? 1)%positive then 70 else if (host =? 2)%positive then 10 else 20)%N.

Definition example_decorator (factor : N) (overload : positive → Q → Q)
  : BoundedLoadHashingLoadBalancer.t :=
  BoundedLoadHashingLoadBalancer.new example_table example_weights factor overload.

(** Three priority levels, of which only priority 0 has hosts. *)
Definition example_lb (factor : option N) (mu : Mutex) : ThreadAwareLoadBalancerBase.t :=
  {| ThreadAwareLoadBalancerBase.priority_set_ :=
       [ mkHostSet [1; 2; 3]%positive [1; 2]%positive [3%positive];
         mkHostSet [] [] [];
         mkHostSet [] [] [] ];
     ThreadAwareLoadBalancerBase.host_weight := λ _, 1%N;
     ThreadAwareLoadBalancerBase.per_priority_load_ := ([100; 0; 0]%N, [0; 0; 0]%N);
     ThreadAwareLoadBalancerBase.hash_balance_factor := factor;
     ThreadAwareLoadBalancerBase.hostOverloadFactor := all_overloaded;
     ThreadAwareLoadBalancerBase.createLoadBalancer := λ _ _ _, example_table;
     ThreadAwareLoadBalancerBase.factory_ := LoadBalancerFactoryImpl.set_mutex_ mu LoadBalancerFactoryImpl.new;
     ThreadAwareLoadBalancerBase.cross_priority_host_map_mutex_ := Unlocked;
     ThreadAwareLoadBalancerBase.cross_priority_host_map_ := None |}.

Definition example_host_map : gmap string positive :=
  {[ "10.0.0.1:8080" := 1%positive; "10.0.0.2:8080" := 2%positive ]}.

(** What a refresh publishes, per priority: whether a table is recorded,
    and the panic flag. *)
Definition published_states (lb : ThreadAwareLoadBalancerBase.t) : option (list (bool * bool)) :=
  match ThreadAwareLoadBalancerBase.refresh lb with
  | Some (_, lb') =>
      match LoadBalancerFactoryImpl.per_priority_state_ (ThreadAwareLoadBalancerBase.factory_ lb') with
      | Some states =>
          Some (map (λ state, (bool_decide (is_Some (current_lb_ state)), global_panic_ state)) states)
      | None => None
      end
  | None => None
  end.

(** A file system whose files can be created and opened, one where the
    open fails, and one that cannot create the file. *)
Definition example_file_system (created opened : bool) : FileBasedKeyValueStore.Instance :=
  {| FileBasedKeyValueStore.fileExists := λ _, true;
     FileBasedKeyValueStore.fileReadToEnd := λ _, "";
     FileBasedKeyValueStore.createFile :=
       λ _, if created then Some (FileBasedKeyValueStore.mkFile (λ _, opened)) else None |}.

(** A store of two entries; the second key holds a line feed and the
    second value starts with a digit. *)
Definition example_store : list (string * string) :=
  [("alt-svc", "h3=:443"); (String FileBasedKeyValueStore.LF "k", "7 days")].

(** The example load balancer after one refresh. *)
Definition example_refreshed_lb : ThreadAwareLoadBalancerBase.t :=
  match ThreadAwareLoadBalancerBase.refresh (example_lb (Some 120%N) Unlocked) with
  | Some (_, lb') => lb'
  | None => example_lb (Some 120%N) Unlocked
  end.

(** A priority policy that always picks priority 0, and one that always
    picks priority 1. *)
Definition first_priority : N → list N → list N → nat := λ _ _ _, 0.
Definition second_priority : N → list N → list N → nat := λ _ _ _, 1.

(** * Properties *)

(** ** The hash key of a host *)

Lemma metadataValue_override (host : Host) :
  metadataValue (metadata host) ENVOY_LB HASH_KEY = default ValueNotSet (hash_key_override host).
Proof.
  unfold metadataValue, hash_key_override, ENVOY_LB, HASH_KEY.
  destruct (metadata host) as [m|]; simpl; [|reflexivity].
  destruct (filter_metadata m !! "envoy.lb") as [st|]; reflexivity.
Qed.

Lemma string_empty_spec (s : string) : string_empty s = bool_decide (s = "").
Proof. destruct s; reflexivity. Qed.

Lemma without_override_absent (host : Host) : hash_key_override (without_override host) = None.
Proof.
  unfold hash_key_override, without_override; simpl.
  destruct (metadata host) as [m|]; simpl; [|reflexivity].
  rewrite lookup_alter_eq.
  destruct (filter_metadata m !! "envoy.lb") as [st|]; simpl; [|reflexivity].
  apply lookup_delete_eq.
Qed.

(** C3: the value [hashKey] returns is, in priority order, the string
    stored under [envoy.lb] / [hash_key] when that entry is present and a
    non-empty string, otherwise the hostname when [use_hostname] is set,
    otherwise the address string. *)
Theorem hashKey_priority_order (host : Host) (use_hostname : bool) :
  (HashingLoadBalancer.hashKey host use_hostname).1 = hashKey_by_priority host use_hostname.
Proof.
  unfold HashingLoadBalancer.hashKey, hashKey_by_priority, hashKey_fallback.
  rewrite metadataValue_override.
  destruct (hash_key_override host) as [[| |q|s|b|fs|vs]|]; simpl;
    try (destruct use_hostname; reflexivity).
  rewrite string_empty_spec.
  destruct (decide (s = "")) as [->|Hne]; simpl; [reflexivity|].
  rewrite bool_decide_eq_false_2 by assumption. reflexivity.
Qed.

(** The override wins over a differing hostname and address; an empty
    string override and a host without metadata fall back. *)
Example hashKey_string_override :
  HashingLoadBalancer.hashKey (host_with_override (StringValue "shard-7")) true = ("shard-7", []).
Proof. reflexivity. Qed.

Example hashKey_empty_string_override :
  HashingLoadBalancer.hashKey (host_with_override (StringValue "")) true
  = ("backend-1.example", []).
Proof. reflexivity. Qed.

Example hashKey_no_metadata :
  HashingLoadBalancer.hashKey (mkHost None "backend-2.example" "10.0.0.2:8080") false
  = ("10.0.0.2:8080", []).
Proof. reflexivity. Qed.

(** An entry with no kind set is what [metadataValue] returns for a
    missing entry: nothing is logged for it. *)
Example hashKey_kind_not_set :
  HashingLoadBalancer.hashKey (host_with_override ValueNotSet) false = ("10.0.0.1:8080", []).
Proof. reflexivity. Qed.

(** C4: when the override entry is present with a kind other than string,
    [hashKey] returns normally: it logs one debug record naming the kind,
    and its value is the hostname (with [use_hostname]) or else the
    address, the value it returns for the same host without the override. *)
Theorem hashKey_non_string_override (host : Host) (use_hostname : bool) (entry : Value) :
  hash_key_override host = Some entry →
  kind_case entry ≠ KIND_NOT_SET →
  kind_case entry ≠ kStringValue →
  HashingLoadBalancer.hashKey host use_hostname =
    (if use_hostname then hostname host else address_asString host,
     [mkLogEntry debug "hash_key must be string type, got: {}" (kind_case entry)])
  ∧ (HashingLoadBalancer.hashKey host use_hostname).1 = (HashingLoadBalancer.hashKey (without_override host) use_hostname).1.
Proof.
  intros Hentry Hset Hstr.
  assert (Hval : HashingLoadBalancer.hashKey host use_hostname =
    (if use_hostname then hostname host else address_asString host,
     [mkLogEntry debug "hash_key must be string type, got: {}" (kind_case entry)])).
  { unfold HashingLoadBalancer.hashKey. rewrite metadataValue_override, Hentry. simpl.
    rewrite !bool_decide_eq_true_2 by assumption. simpl.
    destruct entry; simpl in *; congruence. }
  split; [exact Hval|].
  rewrite Hval. unfold HashingLoadBalancer.hashKey.
  rewrite metadataValue_override, without_override_absent. simpl.
  destruct use_hostname; reflexivity.
Qed.

Lemma hashKey_non_string_override_witness :
  HashingLoadBalancer.hashKey (host_with_override (NumberValue 7)) true =
    ("backend-1.example",
     [mkLogEntry debug "hash_key must be string type, got: {}" kNumberValue])
  ∧ (HashingLoadBalancer.hashKey (host_with_override (NumberValue 7)) true).1
    = (HashingLoadBalancer.hashKey (without_override (host_with_override (NumberValue 7))) true).1.
Proof.
  apply (hashKey_non_string_override (host_with_override (NumberValue 7)) true (NumberValue 7)).
  - reflexivity.
  - simpl. discriminate.
  - simpl. discriminate.
Defined.

(** ** The bounded-load decorator *)

Section BoundedLoad.

Import BoundedLoadHashingLoadBalancer.

Variable lb : BoundedLoadHashingLoadBalancer.t.

Local Abbreviation inner := (hashing_lb_ptr_ lb).

(** The loop never counts past its bound. *)
Lemma reprobe_bound (hash attempt : N) (probes : nat) :
  probes ≤ max_probes lb → probes_of (reprobe lb hash attempt probes) ≤ max_probes lb.
Proof.
  funelim (reprobe lb hash attempt probes); simpl; intros Hle; lia.
Qed.

(** A selected candidate was offered by the inner table and is within
    capacity. *)
Lemma reprobe_selected (hash attempt : N) (probes : nat) (candidate : positive) (n : nat) :
  reprobe lb hash attempt probes = Selected candidate n →
  overloaded lb candidate = false
  ∧ ∃ k, probes + k < max_probes lb ∧ n = S (probes + k)
         ∧ HashingLoadBalancer.chooseHost inner hash (attempt_after k attempt) = Some candidate.
Proof.
  funelim (reprobe lb hash attempt probes); intros Hsel; try discriminate.
  - match goal with IH : ∀ c m, _ → _ ∧ _ |- _ =>
      destruct (IH _ _ Hsel) as [Hok (k & Hk & Hn & Hc)] end.
    split; [assumption|]. exists (S k). repeat split; [lia|lia|].
    unfold attempt_after in *. rewrite Nat.iter_succ_r. exact Hc.
  - injection Hsel as <- <-. split; [assumption|].
    exists 0. rewrite Nat.add_0_r. repeat split; [lia|assumption].
Qed.


(** With factor 100 the loop rejects nothing: it ends at its first
    probe, with the candidate of the attempt it was called with. *)
Lemma reprobe_disabled (hash attempt : N) (probes : nat) :
  hash_balance_factor_ lb = 100%N →
  match reprobe lb hash attempt probes with
  | Selected candidate _ => HashingLoadBalancer.chooseHost inner hash attempt = Some candidate
  | NoCandidate _ => HashingLoadBalancer.chooseHost inner hash attempt = None
  | Exhausted _ => ¬ probes < max_probes lb
  end.
Proof.
  intros Hfactor.
  funelim (reprobe lb hash attempt probes); try assumption.
  exfalso.
  match goal with Hov : overloaded _ _ = true |- _ =>
    unfold overloaded in Hov; rewrite Hfactor in Hov; discriminate Hov end.
Qed.



(** C2: with hash balance factor 100 the decorator's answer for attempt 0
    is the inner table's answer for attempt 0, for every hash. *)
Theorem chooseHost_factor_100_pass_through (hash : N) :
  hash_balance_factor_ lb = 100%N →
  chooseHost lb hash 0 = HashingLoadBalancer.chooseHost inner hash 0.
Proof.
  intros Hfactor. unfold chooseHost.
  pose proof (reprobe_disabled hash 0 0 Hfactor) as Hloop.
  destruct (reprobe lb hash 0 0); [symmetry; exact Hloop|symmetry; exact Hloop|reflexivity].
Qed.

End BoundedLoad.

(** The weight map built by the constructor has one key per distinct host
    of the weight vector. *)
Lemma initNormalizedHostWeightMap_dom (normalized_host_weights : list (positive * Q))
    (m : gmap positive Q) :
  dom (fold_left (λ acc item, <[item.1 := item.2]> acc) normalized_host_weights m)
  = dom m ∪ list_to_set normalized_host_weights.*1.
Proof.
  revert m. induction normalized_host_weights as [|[host weight] rest IH]; intros m; simpl.
  - symmetry. apply (right_id_L ∅ (∪)).
  - rewrite IH, dom_insert_L.
    rewrite (comm_L (∪) {[host]} (dom m)), <- (assoc_L (∪)). reflexivity.
Qed.

Lemma initNormalizedHostWeightMap_size (normalized_host_weights : list (positive * Q)) :
  size (BoundedLoadHashingLoadBalancer.initNormalizedHostWeightMap normalized_host_weights)
  = length (remove_dups normalized_host_weights.*1).
Proof.
  unfold BoundedLoadHashingLoadBalancer.initNormalizedHostWeightMap.
  rewrite <- size_dom, initNormalizedHostWeightMap_dom, dom_empty_L, (left_id_L ∅ (∪)).
  rewrite <- (size_list_to_set (C := gset positive) (remove_dups _)) by apply NoDup_remove_dups.
  f_equal. apply set_eq. intros host.
  rewrite !elem_of_list_to_set, elem_of_remove_dups. reflexivity.
Qed.

(** C7: on every input [chooseHost] of a decorator built over a weight
    vector returns what its re-probe loop ends with, and that loop ends
    after at most as many probes of the inner table as the vector has
    distinct hosts. *)
Theorem chooseHost_probe_bound (hashing_lb_ptr : HashingLoadBalancer.t)
    (normalized_host_weights : list (positive * Q)) (hash_balance_factor : N)
    (overload : positive → Q → Q) (hash attempt : N) :
  let lb := BoundedLoadHashingLoadBalancer.new hashing_lb_ptr normalized_host_weights
              hash_balance_factor overload in
  let outcome := BoundedLoadHashingLoadBalancer.reprobe lb hash attempt 0 in
  BoundedLoadHashingLoadBalancer.chooseHost lb hash attempt
  = match outcome with
    | BoundedLoadHashingLoadBalancer.Selected candidate _ => Some candidate
    | BoundedLoadHashingLoadBalancer.NoCandidate _ => None
    | BoundedLoadHashingLoadBalancer.Exhausted _ =>
        HashingLoadBalancer.chooseHost hashing_lb_ptr hash 0
    end
  ∧ BoundedLoadHashingLoadBalancer.probes_of outcome
    ≤ length (remove_dups normalized_host_weights.*1).
Proof.
  intros lb outcome. split.
  - unfold BoundedLoadHashingLoadBalancer.chooseHost. fold outcome.
    destruct outcome; reflexivity.
  - rewrite <- initNormalizedHostWeightMap_size.
    apply (reprobe_bound lb). lia.
Qed.



Lemma chooseHost_factor_100_pass_through_witness :
  BoundedLoadHashingLoadBalancer.chooseHost (example_decorator 100 all_overloaded) 7 0
  = HashingLoadBalancer.chooseHost example_table 7 0.
Proof.
  apply (chooseHost_factor_100_pass_through (example_decorator 100 all_overloaded) 7).
  reflexivity.
Defined.

(** The decorator on the three example hosts. *)
Example chooseHost_all_overloaded :
  BoundedLoadHashingLoadBalancer.chooseHost (example_decorator 120 all_overloaded) 0 0
  = Some 1%positive.
Proof. vm_compute. reflexivity. Qed.

Example chooseHost_first_overloaded :
  BoundedLoadHashingLoadBalancer.chooseHost (example_decorator 120 first_overloaded) 0 0
  = Some 2%positive.
Proof. vm_compute. reflexivity. Qed.

(** Host 1 above its bounded share: the hash that maps to it is served by
    the candidate of attempt 1. *)
Example chooseHost_fairness_under_load :
  BoundedLoadHashingLoadBalancer.chooseHost
    (example_decorator 120
       (BoundedLoadHashingLoadBalancer.spec_hostOverloadFactor example_rq_active 100 120)) 0 0
  = Some 2%positive.
Proof. vm_compute. reflexivity. Qed.

Example reprobe_all_overloaded_three_probes :
  BoundedLoadHashingLoadBalancer.reprobe (example_decorator 120 all_overloaded) 0 0 0
  = BoundedLoadHashingLoadBalancer.Exhausted 3.
Proof. vm_compute. reflexivity. Qed.

(** The single candidate over capacity: the probe of attempt 1 finds no
    candidate, also when the call starts at attempt 0. *)
Example chooseHost_single_candidate_overloaded :
  BoundedLoadHashingLoadBalancer.chooseHost
    (BoundedLoadHashingLoadBalancer.new single_candidate_table example_weights 120 all_overloaded) 5 0
  = None.
Proof. vm_compute. reflexivity. Qed.

(** With factor 100 an absent answer of the inner table is passed on. *)
Example chooseHost_factor_100_absent :
  BoundedLoadHashingLoadBalancer.chooseHost
    (BoundedLoadHashingLoadBalancer.new single_candidate_table example_weights 100 all_overloaded) 5 1
  = None.
Proof. vm_compute. reflexivity. Qed.

(** ** Rebuilding the per-priority state *)

(** Unfold a call down to the state it returns. *)
Ltac run_call :=
  unfold ThreadAwareLoadBalancerBase.refresh, ThreadAwareLoadBalancerBase.create,
    ThreadAwareLoadBalancerBase.threadSafeSetCrossPriorityHostMap,
    ThreadAwareLoadBalancerBase.threadSafeGetCrossPriorityHostMap,
    ThreadAwareLoadBalancerBase.modify_factory_,
    MutexLock, call_bind, call_get, call_modify, call_ret;
  simpl.

Section Refresh.

Import ThreadAwareLoadBalancerBase.

Lemma normalize_nil (lb : t) (eligible : list positive) :
  normalize lb eligible = [] ↔ eligible = [].
Proof.
  unfold normalize. split.
  - intros Hnil. apply (f_equal length) in Hnil. rewrite length_map in Hnil.
    destruct eligible; [reflexivity|discriminate].
  - intros ->. reflexivity.
Qed.

Lemma rebuild_empty (lb : t) (host_set : HostSet) :
  eligible_hosts host_set = [] →
  rebuild lb host_set = {| current_lb_ := None; global_panic_ := true |}.
Proof.
  intros Hnil. unfold rebuild.
  apply (normalize_nil lb) in Hnil. rewrite Hnil. reflexivity.
Qed.

Lemma rebuild_nonempty (lb : t) (host_set : HostSet) :
  eligible_hosts host_set ≠ [] →
  is_Some (current_lb_ (rebuild lb host_set)) ∧ global_panic_ (rebuild lb host_set) = false.
Proof.
  intros Hne. unfold rebuild.
  destruct (normalize lb (eligible_hosts host_set)) eqn:Hnorm.
  - apply normalize_nil in Hnorm. contradiction.
  - simpl. split; [eexists; reflexivity|reflexivity].
Qed.

(** Publication writes the three guarded members and releases the
    mutex. *)
Lemma refresh_publishes (lb : t) :
  factory_mutex_ lb = Unlocked →
  refresh lb =
    Some (tt,
          set_factory_
            {| LoadBalancerFactoryImpl.mutex_ := Unlocked;
               LoadBalancerFactoryImpl.per_priority_state_ := Some (map (rebuild lb) (priority_set_ lb));
               LoadBalancerFactoryImpl.healthy_per_priority_load_ := Some (per_priority_load_ lb).1;
               LoadBalancerFactoryImpl.degraded_per_priority_load_ := Some (per_priority_load_ lb).2 |}
            lb).
Proof.
  intros Hfree. run_call. rewrite Hfree. reflexivity.
Qed.

(** C6: [refresh()] records one state per priority level: a null table
    and [global_panic_] set where the eligible host set is empty after the
    healthy, degraded, all-hosts fallback; a table and [global_panic_]
    clear where it is not. *)
Theorem refresh_per_priority_state (lb : t) :
  factory_mutex_ lb = Unlocked →
  ∃ lb' states,
    refresh lb = Some (tt, lb')
    ∧ LoadBalancerFactoryImpl.per_priority_state_ (factory_ lb') = Some states
    ∧ length states = length (priority_set_ lb)
    ∧ ∀ (priority : nat) (host_set : HostSet),
        priority_set_ lb !! priority = Some host_set →
        ∃ state,
          states !! priority = Some state
          ∧ (eligible_hosts host_set = [] →
             current_lb_ state = None ∧ global_panic_ state = true)
          ∧ (eligible_hosts host_set ≠ [] →
             is_Some (current_lb_ state) ∧ global_panic_ state = false).
Proof.
  intros Hfree. eexists _, (map (rebuild lb) (priority_set_ lb)).
  split; [apply refresh_publishes; exact Hfree|].
  split; [reflexivity|].
  split; [apply length_map|].
  intros priority host_set Hlookup.
  exists (rebuild lb host_set). split.
  - rewrite list_lookup_fmap, Hlookup. reflexivity.
  - split.
    + intros Hnil. rewrite (rebuild_empty lb host_set Hnil). split; reflexivity.
    + apply rebuild_nonempty.
Qed.

(** A worker created after a refresh captures the three members that
    refresh published, and the current host map. *)
Lemma create_after_refresh (lb lb1 : t) :
  cross_priority_host_map_mutex_ lb = Unlocked →
  refresh lb = Some (tt, lb1) →
  ∃ worker lb2,
    create lb1 = Some (worker, lb2)
    ∧ LoadBalancerImpl.per_priority_state_ worker = Some (map (rebuild lb) (priority_set_ lb))
    ∧ LoadBalancerImpl.healthy_per_priority_load_ worker = Some (per_priority_load_ lb).1
    ∧ LoadBalancerImpl.degraded_per_priority_load_ worker = Some (per_priority_load_ lb).2
    ∧ LoadBalancerImpl.cross_priority_host_map_ worker = cross_priority_host_map_ lb.
Proof.
  intros Hmap Hrefresh.
  destruct (factory_mutex_ lb) eqn:Hfree.
  - rewrite (refresh_publishes lb Hfree) in Hrefresh.
    injection Hrefresh as <-.
    destruct lb as [ps hw load factor overload mk_table factory mu current].
    simpl in Hmap. subst mu.
    eexists _, _. split; [run_call; reflexivity|]. repeat split.
  - revert Hrefresh. run_call. rewrite Hfree. discriminate.
Qed.

End Refresh.

Lemma refresh_per_priority_state_witness :
  ∃ lb' states,
    ThreadAwareLoadBalancerBase.refresh (example_lb (Some 120%N) Unlocked) = Some (tt, lb')
    ∧ LoadBalancerFactoryImpl.per_priority_state_ (ThreadAwareLoadBalancerBase.factory_ lb') = Some states
    ∧ length states = 3
    ∧ ∀ (priority : nat) (host_set : HostSet),
        ThreadAwareLoadBalancerBase.priority_set_ (example_lb (Some 120%N) Unlocked) !! priority
          = Some host_set →
        ∃ state,
          states !! priority = Some state
          ∧ (ThreadAwareLoadBalancerBase.eligible_hosts host_set = [] →
             current_lb_ state = None ∧ global_panic_ state = true)
          ∧ (ThreadAwareLoadBalancerBase.eligible_hosts host_set ≠ [] →
             is_Some (current_lb_ state) ∧ global_panic_ state = false).
Proof.
  apply (refresh_per_priority_state (example_lb (Some 120%N) Unlocked)).
  reflexivity.
Defined.

(** The three example priorities: a table at priority 0, panic at
    priorities 1 and 2. *)
Example refresh_three_priorities :
  published_states (example_lb (Some 120%N) Unlocked)
  = Some [(true, false); (false, true); (false, true)].
Proof. vm_compute. reflexivity. Qed.

(** A refresh that finds the factory's mutex held does not return. *)
Example refresh_waits_for_mutex :
  ThreadAwareLoadBalancerBase.refresh (example_lb None Locked) = None.
Proof. reflexivity. Qed.

(** ** The load balancer interface *)

(** C8: [peekAnotherHost] returns no host for every context, on the
    thread-aware base load balancer and on every worker
    [LoadBalancerImpl], whatever it captured from the factory. *)
Theorem peekAnotherHost_null :
  (∀ (lb : ThreadAwareLoadBalancerBase.t) (context : option LoadBalancerContext),
     ThreadAwareLoadBalancerBase.peekAnotherHost lb context = None)
  ∧ (∀ (worker : LoadBalancerImpl.t) (context : option LoadBalancerContext),
       LoadBalancerImpl.peekAnotherHost worker context = None).
Proof. split; intros; reflexivity. Qed.

(** A [create()] that returns hands out a worker holding the three
    members the factory holds. *)
Lemma create_captures_factory (lb lb' : ThreadAwareLoadBalancerBase.t)
    (worker : LoadBalancerImpl.t) :
  ThreadAwareLoadBalancerBase.create lb = Some (worker, lb') →
  LoadBalancerImpl.per_priority_state_ worker
  = LoadBalancerFactoryImpl.per_priority_state_ (ThreadAwareLoadBalancerBase.factory lb)
  ∧ LoadBalancerImpl.healthy_per_priority_load_ worker
    = LoadBalancerFactoryImpl.healthy_per_priority_load_ (ThreadAwareLoadBalancerBase.factory lb)
  ∧ LoadBalancerImpl.degraded_per_priority_load_ worker
    = LoadBalancerFactoryImpl.degraded_per_priority_load_ (ThreadAwareLoadBalancerBase.factory lb).
Proof.
  destruct lb as [ps hw load factor overload mk_table [fmu states healthy degraded] mu current].
  run_call. destruct mu; [|discriminate]. simpl.
  destruct fmu; [|discriminate]. simpl.
  intros Hcreate. injection Hcreate as <- _. repeat split.
Qed.

Lemma create_returns (lb : ThreadAwareLoadBalancerBase.t) :
  ThreadAwareLoadBalancerBase.cross_priority_host_map_mutex_ lb = Unlocked →
  ThreadAwareLoadBalancerBase.factory_mutex_ lb = Unlocked →
  ∃ worker, ThreadAwareLoadBalancerBase.create lb = Some (worker, lb).
Proof.
  destruct lb as [ps hw load factor overload mk_table [fmu states healthy degraded] mu current].
  unfold ThreadAwareLoadBalancerBase.factory_mutex_. simpl. intros -> ->.
  eexists. run_call. reflexivity.
Qed.

(** The worker's selection returns, with the host of the chosen
    priority's table or with no host. *)
Lemma worker_chooseHost_returns (choosePriority : N → list N → list N → nat) (random : N)
    (worker : LoadBalancerImpl.t) (context : option LoadBalancerContext) :
  ∃ result, LoadBalancerImpl.chooseHost choosePriority random worker context = Returns result.
Proof.
  unfold LoadBalancerImpl.chooseHost.
  destruct (states ← LoadBalancerImpl.per_priority_state_ worker; states !! _) as [state|];
    [|eexists; reflexivity].
  destruct (global_panic_ state); [eexists; reflexivity|].
  destruct (current_lb_ state); eexists; reflexivity.
Qed.

(** C10: [chooseHost] on the thread-aware base load balancer ends in
    [NOT_IMPLEMENTED] for every context and returns no result. Selection
    goes through a worker: [factory()] is the factory of the load
    balancer, its [create()] returns a worker when the two mutexes are
    free, and on every worker it returns, holding the factory's
    per-priority states and load vectors, [chooseHost] returns a result
    for every context. *)
Theorem chooseHost_not_implemented (choosePriority : N → list N → list N → nat) (random : N)
    (lb : ThreadAwareLoadBalancerBase.t) (context : option LoadBalancerContext) :
  ThreadAwareLoadBalancerBase.chooseHost lb context = NOT_IMPLEMENTED_GCOVR_EXCL_LINE
  ∧ (∀ result, ThreadAwareLoadBalancerBase.chooseHost lb context ≠ Returns result)
  ∧ ThreadAwareLoadBalancerBase.factory lb = ThreadAwareLoadBalancerBase.factory_ lb
  ∧ (ThreadAwareLoadBalancerBase.cross_priority_host_map_mutex_ lb = Unlocked →
     LoadBalancerFactoryImpl.mutex_ (ThreadAwareLoadBalancerBase.factory lb) = Unlocked →
     ∃ worker, ThreadAwareLoadBalancerBase.create lb = Some (worker, lb))
  ∧ (∀ worker lb',
       ThreadAwareLoadBalancerBase.create lb = Some (worker, lb') →
       LoadBalancerImpl.per_priority_state_ worker
       = LoadBalancerFactoryImpl.per_priority_state_ (ThreadAwareLoadBalancerBase.factory lb)
       ∧ ∃ result,
           LoadBalancerImpl.chooseHost choosePriority random worker context = Returns result).
Proof.
  split; [reflexivity|]. split; [|split; [reflexivity|split]].
  - intros result. unfold ThreadAwareLoadBalancerBase.chooseHost, NOT_IMPLEMENTED_GCOVR_EXCL_LINE.
    discriminate.
  - apply create_returns.
  - intros worker lb' Hcreate. split.
    + apply (create_captures_factory lb lb' worker Hcreate).
    + apply worker_chooseHost_returns.
Qed.

Lemma chooseHost_not_implemented_witness :
  ThreadAwareLoadBalancerBase.chooseHost example_refreshed_lb (Some (mkLoadBalancerContext 0))
  = Panics "not implemented"
  ∧ ∃ worker,
      ThreadAwareLoadBalancerBase.create example_refreshed_lb = Some (worker, example_refreshed_lb)
      ∧ ∃ result,
          LoadBalancerImpl.chooseHost first_priority 7 worker (Some (mkLoadBalancerContext 0))
          = Returns result.
Proof.
  destruct (chooseHost_not_implemented first_priority 7 example_refreshed_lb
              (Some (mkLoadBalancerContext 0)))
    as (Hbase & _ & _ & Hcreate & Hworker).
  split; [exact Hbase|].
  destruct (Hcreate eq_refl eq_refl) as [worker Hcreated].
  exists worker. split; [exact Hcreated|].
  apply (Hworker worker example_refreshed_lb Hcreated).
Defined.

(** The worker of the refreshed example: the host of priority 0's table
    for priority 0, and no host for priority 1, which is in panic. *)
Example worker_chooseHost_example :
  match ThreadAwareLoadBalancerBase.create example_refreshed_lb with
  | Some (worker, _) =>
      (LoadBalancerImpl.chooseHost first_priority 7 worker (Some (mkLoadBalancerContext 0)),
       LoadBalancerImpl.chooseHost second_priority 7 worker (Some (mkLoadBalancerContext 0)))
  | None => (Panics "", Panics "")
  end
  = (Returns (Some 1%positive), Returns None).
Proof. vm_compute. reflexivity. Qed.

(** ** The cross-priority host map *)

(** C9: with its mutex free, [threadSafeSetCrossPriorityHostMap(m)]
    returns, having written the member [cross_priority_host_map_] and
    nothing else: the factory with its per-priority state and load
    vectors is unchanged, whatever the state of the factory's own mutex;
    and [threadSafeGetCrossPriorityHostMap] then returns [m]. *)
Theorem threadSafeSetCrossPriorityHostMap_frame (lb : ThreadAwareLoadBalancerBase.t)
    (host_map : option (gmap string positive)) :
  ThreadAwareLoadBalancerBase.cross_priority_host_map_mutex_ lb = Unlocked →
  ∃ lb',
    ThreadAwareLoadBalancerBase.threadSafeSetCrossPriorityHostMap host_map lb = Some (tt, lb')
    ∧ lb' = ThreadAwareLoadBalancerBase.set_cross_priority_host_map_ host_map lb
    ∧ ThreadAwareLoadBalancerBase.factory_ lb' = ThreadAwareLoadBalancerBase.factory_ lb
    ∧ ThreadAwareLoadBalancerBase.threadSafeGetCrossPriorityHostMap lb' = Some (host_map, lb').
Proof.
  intros Hfree. destruct lb as [ps hw load factor overload create factory mu current].
  simpl in Hfree. subst mu.
  eexists. repeat split.
Qed.

Lemma threadSafeSetCrossPriorityHostMap_frame_witness :
  ∃ lb',
    ThreadAwareLoadBalancerBase.threadSafeSetCrossPriorityHostMap (Some example_host_map)
      (example_lb None Locked) = Some (tt, lb')
    ∧ lb' = ThreadAwareLoadBalancerBase.set_cross_priority_host_map_ (Some example_host_map)
              (example_lb None Locked)
    ∧ ThreadAwareLoadBalancerBase.factory_ lb'
      = ThreadAwareLoadBalancerBase.factory_ (example_lb None Locked)
    ∧ ThreadAwareLoadBalancerBase.threadSafeGetCrossPriorityHostMap lb'
      = Some (Some example_host_map, lb').
Proof.
  apply (threadSafeSetCrossPriorityHostMap_frame (example_lb None Locked) (Some example_host_map)).
  reflexivity.
Defined.

(** * Further properties *)

(** ** The weight map of the decorator *)

Section WeightMap.

Import BoundedLoadHashingLoadBalancer.

Local Abbreviation assign :=
  (λ (acc : gmap positive Q) (item : positive * Q), <[item.1 := item.2]> acc).

(** Items of other hosts leave a host's entry alone. *)
Lemma fold_assign_lookup_other (items : list (positive * Q)) (m : gmap positive Q)
    (host : positive) :
  host ∉ items.*1 → fold_left assign items m !! host = m !! host.
Proof.
  revert m. induction items as [|[h w] rest IH]; intros m Hnotin; simpl; [reflexivity|].
  rewrite fmap_cons in Hnotin. apply not_elem_of_cons in Hnotin as [Hne Hrest].
  rewrite IH by exact Hrest. simpl in Hne. apply lookup_insert_ne. congruence.
Qed.

(** An entry of the result was in the map before or is an item. *)
Lemma fold_assign_lookup_Some (items : list (positive * Q)) (m : gmap positive Q)
    (host : positive) (weight : Q) :
  fold_left assign items m !! host = Some weight →
  (host, weight) ∈ items ∨ m !! host = Some weight.
Proof.
  revert m. induction items as [|[h w] rest IH]; intros m Hlookup; simpl in *; [right; exact Hlookup|].
  destruct (IH _ Hlookup) as [Hin|Hm].
  - left. apply elem_of_cons. right. exact Hin.
  - destruct (decide (h = host)) as [->|Hne].
    + rewrite lookup_insert_eq in Hm. injection Hm as ->. left. apply elem_of_cons. left. reflexivity.
    + rewrite lookup_insert_ne in Hm by exact Hne. right. exact Hm.
Qed.

(** X1: when a host occurs more than once in the weight vector, the
    weight of its last occurrence is the one the map keeps. *)
Theorem initNormalizedHostWeightMap_last_wins (before after : list (positive * Q))
    (host : positive) (weight : Q) :
  host ∉ after.*1 →
  initNormalizedHostWeightMap (before ++ (host, weight) :: after) !! host = Some weight.
Proof.
  intros Hlast. unfold initNormalizedHostWeightMap.
  rewrite fold_left_app. simpl.
  rewrite fold_assign_lookup_other by exact Hlast.
  apply lookup_insert_eq.
Qed.

(** X2: the map the constructor builds and the vector it stores agree:
    the map has an entry for exactly the hosts of the vector, and every
    entry carries a weight the vector gives to that host. *)
Theorem new_map_agrees_with_vector (hashing_lb_ptr : HashingLoadBalancer.t)
    (normalized_host_weights : list (positive * Q)) (hash_balance_factor : N)
    (overload : positive → Q → Q) :
  let lb := new hashing_lb_ptr normalized_host_weights hash_balance_factor overload in
  normalized_host_weights_ lb = normalized_host_weights
  ∧ (∀ host, is_Some (normalized_host_weights_map_ lb !! host)
             ↔ host ∈ (normalized_host_weights_ lb).*1)
  ∧ (∀ host weight, normalized_host_weights_map_ lb !! host = Some weight →
                    (host, weight) ∈ normalized_host_weights_ lb).
Proof.
  intros lb. split; [reflexivity|]. split.
  - intros host. rewrite <- elem_of_dom. simpl.
    unfold initNormalizedHostWeightMap.
    rewrite initNormalizedHostWeightMap_dom, dom_empty_L, (left_id_L ∅ (∪)).
    apply elem_of_list_to_set.
  - intros host weight Hlookup. simpl in *.
    destruct (fold_assign_lookup_Some _ _ _ _ Hlookup) as [Hin|Hempty]; [exact Hin|].
    rewrite lookup_empty in Hempty. discriminate.
Qed.

(** Over a vector without repeated hosts the map holds exactly the
    items. *)
Lemma initNormalizedHostWeightMap_NoDup (items : list (positive * Q)) (host : positive)
    (weight : Q) :
  NoDup items.*1 →
  initNormalizedHostWeightMap items !! host = Some weight ↔ (host, weight) ∈ items.
Proof.
  intros Hnodup. split.
  - intros Hlookup.
    destruct (fold_assign_lookup_Some _ _ _ _ Hlookup) as [Hin|Hempty]; [exact Hin|].
    rewrite lookup_empty in Hempty. discriminate.
  - intros Hin. apply list_elem_of_split in Hin as (before & after & ->).
    rewrite fmap_app, fmap_cons in Hnodup.
    apply NoDup_app in Hnodup as (_ & _ & Hafter).
    apply NoDup_cons in Hafter as [Hnotin _].
    unfold initNormalizedHostWeightMap. rewrite fold_left_app. simpl.
    rewrite fold_assign_lookup_other by exact Hnotin.
    apply lookup_insert_eq.
Qed.

Lemma remove_dups_NoDup (hosts : list positive) : NoDup hosts → remove_dups hosts = hosts.
Proof.
  induction 1 as [|host rest Hnotin _ IH]; simpl; [reflexivity|].
  destruct (decide_rel elem_of host rest); [contradiction|]. rewrite IH. reflexivity.
Qed.

(** X3: when no host is repeated in the weight vector, the map returns
    for every item of the vector that item's own weight, and has as many
    entries as the vector has items. *)
Theorem initNormalizedHostWeightMap_faithful (items : list (positive * Q)) :
  NoDup items.*1 →
  (∀ host weight, (host, weight) ∈ items →
                  initNormalizedHostWeightMap items !! host = Some weight)
  ∧ size (initNormalizedHostWeightMap items) = length items.
Proof.
  intros Hnodup. split.
  - intros host weight Hin. apply initNormalizedHostWeightMap_NoDup; assumption.
  - rewrite initNormalizedHostWeightMap_size.
    rewrite remove_dups_NoDup by exact Hnodup.
    apply length_fmap.
Qed.

(** X4: the order of the weight vector does not matter when no host is
    repeated: any reordering builds the same map. *)
Theorem initNormalizedHostWeightMap_order_independent (items items' : list (positive * Q)) :
  NoDup items.*1 →
  items ≡ₚ items' →
  initNormalizedHostWeightMap items = initNormalizedHostWeightMap items'.
Proof.
  intros Hnodup Hperm.
  assert (Hnodup' : NoDup items'.*1) by (rewrite <- Hperm; exact Hnodup).
  apply map_eq. intros host. apply option_eq. intros weight.
  rewrite !initNormalizedHostWeightMap_NoDup by assumption.
  rewrite Hperm. reflexivity.
Qed.

Lemma remove_dups_length_le (hosts : list positive) :
  length (remove_dups hosts) ≤ length hosts.
Proof.
  induction hosts as [|host rest IH]; simpl; [lia|].
  destruct (decide_rel elem_of host rest); simpl; lia.
Qed.

Lemma remove_dups_length_eq (hosts : list positive) :
  length (remove_dups hosts) = length hosts ↔ NoDup hosts.
Proof.
  split; [|intros Hnodup; rewrite remove_dups_NoDup by exact Hnodup; reflexivity].
  induction hosts as [|host rest IH]; simpl; [intros _; constructor|].
  destruct (decide_rel elem_of host rest) as [Hin|Hnotin]; simpl; intros Hlen.
  - pose proof (remove_dups_length_le rest). lia.
  - constructor; [exact Hnotin|]. apply IH. lia.
Qed.

(** X12: the map never has more entries than the weight vector has
    items, and has as many exactly when no host is repeated in the
    vector: each repetition costs an entry. *)
Theorem initNormalizedHostWeightMap_size_le (items : list (positive * Q)) :
  size (initNormalizedHostWeightMap items) ≤ length items
  ∧ (size (initNormalizedHostWeightMap items) = length items ↔ NoDup items.*1).
Proof.
  rewrite initNormalizedHostWeightMap_size, <- (length_fmap fst items).
  split; [apply remove_dups_length_le|apply remove_dups_length_eq].
Qed.

End WeightMap.

Lemma initNormalizedHostWeightMap_last_wins_witness :
  BoundedLoadHashingLoadBalancer.initNormalizedHostWeightMap
    ([(1%positive, 1 # 2)] ++ (1%positive, 1 # 4) :: [(2%positive, 3 # 10)]) !! 1%positive
  = Some (1 # 4).
Proof.
  apply (initNormalizedHostWeightMap_last_wins [(1%positive, 1 # 2)] [(2%positive, 3 # 10)]
           1%positive (1 # 4)).
  vm_compute. intros Hin. inversion Hin as [|? ? ? Hnil]; subst. inversion Hnil.
Defined.

Lemma initNormalizedHostWeightMap_faithful_witness :
  (∀ host weight, (host, weight) ∈ example_weights →
                  BoundedLoadHashingLoadBalancer.initNormalizedHostWeightMap example_weights !! host
                  = Some weight)
  ∧ size (BoundedLoadHashingLoadBalancer.initNormalizedHostWeightMap example_weights) = 3.
Proof.
  apply (initNormalizedHostWeightMap_faithful example_weights).
  vm_compute. repeat constructor; intros Hin; inversion Hin; subst;
    repeat match goal with H : _ ∈ _ |- _ => inversion H; clear H; subst end.
Defined.

Lemma initNormalizedHostWeightMap_order_independent_witness :
  BoundedLoadHashingLoadBalancer.initNormalizedHostWeightMap example_weights
  = BoundedLoadHashingLoadBalancer.initNormalizedHostWeightMap
      [(2%positive, 3 # 10); (1%positive, 1 # 2); (3%positive, 1 # 5)].
Proof.
  apply (initNormalizedHostWeightMap_order_independent example_weights).
  - vm_compute. repeat constructor; intros Hin; inversion Hin; subst;
      repeat match goal with H : _ ∈ _ |- _ => inversion H; clear H; subst end.
  - apply perm_swap.
Defined.

(** ** More on the hash key *)

(** The value [hashKey] returns, by the entry it found. *)
Lemma hashKey_value (host : Host) (use_hostname : bool) :
  (HashingLoadBalancer.hashKey host use_hostname).1
  = if string_empty (string_value (metadataValue (metadata host) ENVOY_LB HASH_KEY))
    then (if use_hostname then hostname host else address_asString host)
    else string_value (metadataValue (metadata host) ENVOY_LB HASH_KEY).
Proof.
  unfold HashingLoadBalancer.hashKey.
  destruct (bool_decide _ && bool_decide _); reflexivity.
Qed.

(** X5: [hashKey] returns an empty key only when the fallback it was
    told to use, hostname or address, is itself empty: an override never
    makes the key empty. *)
Theorem hashKey_empty_only_from_fallback (host : Host) (use_hostname : bool) :
  (HashingLoadBalancer.hashKey host use_hostname).1 = "" →
  (if use_hostname then hostname host else address_asString host) = "".
Proof.
  rewrite hashKey_value.
  destruct (string_value (metadataValue (metadata host) ENVOY_LB HASH_KEY)) eqn:Hval; simpl.
  - intros Hempty. exact Hempty.
  - discriminate.
Qed.

Lemma hashKey_empty_only_from_fallback_witness :
  (if false then hostname (mkHost None "" "") else address_asString (mkHost None "" "")) = "".
Proof.
  apply (hashKey_empty_only_from_fallback (mkHost None "" "") false).
  reflexivity.
Defined.

(** X6: two hosts that carry the same non-empty string under the
    hash-key entry get the same hash key, whatever their hostnames and
    addresses and whichever fallback each is asked for, and nothing is
    logged for either. *)
Theorem hashKey_shared_override (host host' : Host) (use_hostname use_hostname' : bool)
    (key : string) :
  key ≠ "" →
  metadataValue (metadata host) ENVOY_LB HASH_KEY = StringValue key →
  metadataValue (metadata host') ENVOY_LB HASH_KEY = StringValue key →
  HashingLoadBalancer.hashKey host use_hostname = (key, [])
  ∧ HashingLoadBalancer.hashKey host' use_hostname' = (key, []).
Proof.
  intros Hne Hhost Hhost'. unfold HashingLoadBalancer.hashKey.
  rewrite Hhost, Hhost'. simpl.
  destruct key; [contradiction|]. split; reflexivity.
Qed.

Lemma hashKey_shared_override_witness :
  HashingLoadBalancer.hashKey (host_with_override (StringValue "shard-7")) true = ("shard-7", [])
  ∧ HashingLoadBalancer.hashKey
      {| metadata := Some (mkMetadata {[ "envoy.lb" := {[ "hash_key" := StringValue "shard-7" ]} ]});
         hostname := "backend-9.example";
         address_asString := "10.0.0.9:8080" |} false
    = ("shard-7", []).
Proof.
  apply (hashKey_shared_override _ _ true false "shard-7");
    [discriminate|reflexivity|reflexivity].
Defined.

(** ** The cross-priority host map as a variable *)

Lemma threadSafeSetCrossPriorityHostMap_run (lb : ThreadAwareLoadBalancerBase.t)
    (host_map : option (gmap string positive)) :
  ThreadAwareLoadBalancerBase.cross_priority_host_map_mutex_ lb = Unlocked →
  ThreadAwareLoadBalancerBase.threadSafeSetCrossPriorityHostMap host_map lb
  = Some (tt, ThreadAwareLoadBalancerBase.set_cross_priority_host_map_ host_map lb).
Proof.
  intros Hfree. destruct lb. simpl in Hfree. subst. reflexivity.
Qed.

Lemma threadSafeGetCrossPriorityHostMap_run (lb : ThreadAwareLoadBalancerBase.t) :
  ThreadAwareLoadBalancerBase.cross_priority_host_map_mutex_ lb = Unlocked →
  ThreadAwareLoadBalancerBase.threadSafeGetCrossPriorityHostMap lb
  = Some (ThreadAwareLoadBalancerBase.cross_priority_host_map_ lb, lb).
Proof.
  intros Hfree. destruct lb. simpl in Hfree. subst. reflexivity.
Qed.

(** X7: with the map's mutex free, any sequence of
    [threadSafeSetCrossPriorityHostMap] and
    [threadSafeGetCrossPriorityHostMap] calls returns, and behaves as
    reads and writes of one variable: each get returns the map of the
    latest set before it (the initial map when there is none), and the
    final state differs from the initial one in
    [cross_priority_host_map_] only. *)
Theorem host_map_calls_as_register (calls : list HostMapCall)
    (lb : ThreadAwareLoadBalancerBase.t) :
  ThreadAwareLoadBalancerBase.cross_priority_host_map_mutex_ lb = Unlocked →
  run_host_map_calls calls lb
  = Some ((register_calls (ThreadAwareLoadBalancerBase.cross_priority_host_map_ lb) calls).1,
          ThreadAwareLoadBalancerBase.set_cross_priority_host_map_
            (register_calls (ThreadAwareLoadBalancerBase.cross_priority_host_map_ lb) calls).2 lb).
Proof.
  revert lb. induction calls as [|[host_map|] rest IH]; intros lb Hfree.
  - destruct lb. reflexivity.
  - simpl. unfold call_bind.
    rewrite threadSafeSetCrossPriorityHostMap_run by exact Hfree.
    rewrite IH by (destruct lb; exact Hfree).
    destruct lb. reflexivity.
  - simpl. unfold call_bind.
    rewrite threadSafeGetCrossPriorityHostMap_run by exact Hfree.
    rewrite IH by exact Hfree.
    destruct (register_calls _ rest). reflexivity.
Qed.

Lemma host_map_calls_as_register_witness :
  run_host_map_calls [GetHostMap; SetHostMap (Some example_host_map); GetHostMap; SetHostMap None]
    (example_lb None Locked)
  = Some ([None; Some example_host_map],
          ThreadAwareLoadBalancerBase.set_cross_priority_host_map_ None (example_lb None Locked)).
Proof.
  apply (host_map_calls_as_register
           [GetHostMap; SetHostMap (Some example_host_map); GetHostMap; SetHostMap None]
           (example_lb None Locked)).
  reflexivity.
Defined.

(** ** The format written by the key value store *)

Section FlushFormat.

Import FileBasedKeyValueStore.

(** String append, one character at a time. *)
Lemma string_app_cons (ch : ascii) (a b : string) :
  (String ch a ++ b = String ch (a ++ b))%string.
Proof. reflexivity. Qed.

Lemma string_app_nil_l (a : string) : ("" ++ a = a)%string.
Proof. reflexivity. Qed.

Lemma string_app_assoc (a b c : string) : ((a ++ b) ++ c = a ++ (b ++ c))%string.
Proof.
  induction a as [|ch a IH]; [reflexivity|].
  rewrite !string_app_cons, IH. reflexivity.
Qed.

Lemma string_app_nil_r (a : string) : (a ++ "" = a)%string.
Proof.
  induction a as [|ch a IH]; [reflexivity|].
  rewrite string_app_cons, IH. reflexivity.
Qed.

Lemma written_app (calls calls' : list FileCall) :
  written (calls ++ calls') = (written calls ++ written calls')%string.
Proof.
  induction calls as [|[flags|buffer|] calls IH]; simpl; try assumption; [reflexivity|].
  rewrite IH, string_app_assoc. reflexivity.
Qed.

(** A decimal numeral has no line feed: the line ends where the digits
    end. *)
Lemma split_LF_numeral (d : uint) (rest : string) :
  split_LF (NilEmpty.string_of_uint d ++ String LF rest) = Some (NilEmpty.string_of_uint d, rest).
Proof.
  induction d as [|d IH|d IH|d IH|d IH|d IH|d IH|d IH|d IH|d IH|d IH];
    [reflexivity|simpl; rewrite IH; reflexivity ..].
Qed.

Lemma split_bytes_app (bytes rest : string) :
  split_bytes (String.length bytes) (bytes ++ rest) = Some (bytes, rest).
Proof.
  induction bytes as [|ch bytes IH]; [reflexivity|].
  rewrite ?string_app_cons. simpl. rewrite IH. reflexivity.
Qed.

(** A field written by [flush()] is read back whole, whatever bytes it
    holds and whatever follows it. *)
Lemma read_field_written (bytes rest : string) :
  read_field (StrCat_LF (String.length bytes) ++ bytes ++ rest) = Some (bytes, rest).
Proof.
  unfold read_field, StrCat_LF.
  rewrite string_app_assoc, string_app_cons, string_app_nil_l.
  rewrite split_LF_numeral, NilEmpty.usu, DecimalNat.Unsigned.of_to.
  apply split_bytes_app.
Qed.

Lemma read_entry_written (it : string * string) (rest : string) :
  read_entry (written (flush_entry it) ++ rest) = Some (it, rest).
Proof.
  destruct it as [key value]. unfold read_entry, flush_entry. simpl.
  rewrite string_app_nil_r, !string_app_assoc.
  rewrite read_field_written, read_field_written. reflexivity.
Qed.

(** X8: the four writes of one store entry are self-delimiting: if the
    bytes of one entry followed by any data equal the bytes of another
    entry followed by any data, the entries are the same and so is the
    data that follows, whatever bytes keys and values contain. *)
Theorem flush_entry_self_delimiting (it it' : string * string) (rest rest' : string) :
  (written (flush_entry it) ++ rest = written (flush_entry it') ++ rest')%string →
  it = it' ∧ rest = rest'.
Proof.
  intros Hbytes. apply (f_equal read_entry) in Hbytes.
  rewrite !read_entry_written in Hbytes.
  injection Hbytes as -> ->. split; reflexivity.
Qed.

Lemma written_entries_cons (it : string * string) (store : list (string * string)) :
  written (flat_map flush_entry (it :: store))
  = (written (flush_entry it) ++ written (flat_map flush_entry store))%string.
Proof.
  change (flat_map flush_entry (it :: store))
    with (flush_entry it ++ flat_map flush_entry store)%list.
  apply written_app.
Qed.

Lemma written_entries_inj (store store' : list (string * string)) :
  written (flat_map flush_entry store) = written (flat_map flush_entry store') →
  store = store'.
Proof.
  revert store'. induction store as [|it store IH]; intros [|it' store'] Hbytes.
  - reflexivity.
  - apply (f_equal read_entry) in Hbytes.
    rewrite written_entries_cons, read_entry_written in Hbytes. discriminate.
  - apply (f_equal read_entry) in Hbytes.
    rewrite written_entries_cons, read_entry_written in Hbytes. discriminate.
  - apply (f_equal read_entry) in Hbytes.
    rewrite !written_entries_cons, !read_entry_written in Hbytes.
    injection Hbytes as -> Hrest. f_equal. apply IH. exact Hrest.
Qed.

(** What a flush that logs nothing did. *)
Lemma flush_succeeded (file_system_ : Instance) (filename_ : string)
    (store_ : list (string * string)) :
  (flush file_system_ filename_ store_).2 = [] →
  (flush file_system_ filename_ store_).1
  = file_open DefaultFlags :: flat_map flush_entry store_ ++ [file_close].
Proof.
  unfold flush. destruct (createFile file_system_ filename_) as [file|]; [|discriminate].
  destruct (open_return_value_ file DefaultFlags); simpl; [reflexivity|discriminate].
Qed.

(** X9: the bytes of a flush determine the store: two flushes that log
    no failure and write the same bytes wrote the same entries in the
    same order. *)
Theorem flush_written_inj (file_system_ file_system_' : Instance) (filename_ filename_' : string)
    (store_ store_' : list (string * string)) :
  (flush file_system_ filename_ store_).2 = [] →
  (flush file_system_' filename_' store_').2 = [] →
  written (flush file_system_ filename_ store_).1
  = written (flush file_system_' filename_' store_').1 →
  store_ = store_'.
Proof.
  intros Hok Hok'.
  rewrite (flush_succeeded _ _ _ Hok), (flush_succeeded _ _ _ Hok'). simpl.
  rewrite !written_app. simpl. rewrite !string_app_nil_r.
  apply written_entries_inj.
Qed.

(** X10: a flush that fails logs one error record naming the file and
    writes nothing: no [write] and no [close] reaches the file, and
    [open] is the only call made on a file that could be created. A
    flush that does not fail opens, writes four buffers per entry and
    closes. *)
Theorem flush_all_or_nothing (file_system_ : Instance) (filename_ : string)
    (store_ : list (string * string)) :
  let calls := (flush file_system_ filename_ store_).1 in
  let log := (flush file_system_ filename_ store_).2 in
  (log = []
   ∧ calls = file_open DefaultFlags :: flat_map flush_entry store_ ++ [file_close]
   ∧ length calls = 4 * length store_ + 2)
  ∨ (log = [mkLogRecord error "Failed to flush cache to file {}" filename_]
     ∧ written calls = ""
     ∧ ∀ c, c ∈ calls → c = file_open DefaultFlags).
Proof.
  unfold flush. destruct (createFile file_system_ filename_) as [file|]; simpl.
  - destruct (open_return_value_ file DefaultFlags); simpl.
    + left. split; [reflexivity|]. split; [reflexivity|].
      rewrite length_app. simpl. f_equal.
      induction store_ as [|it rest IH]; simpl; [reflexivity|]. rewrite IH. lia.
    + right. split; [reflexivity|]. split; [reflexivity|].
      intros c Hc. apply list_elem_of_singleton in Hc. exact Hc.
  - right. split; [reflexivity|]. split; [reflexivity|].
    intros c Hc. apply elem_of_nil in Hc. contradiction.
Qed.

(** X11: what the constructor leaves in the store is what the next
    flush writes: nothing for a missing file, and for an existing file the
    entries [parseContents] put in the store, also when it reported a
    failure. *)
Theorem new_then_flush (file_system_ file_system_' : Instance) (filename : string)
    (parseContents : string → list (string * string) → bool * list (string * string)) :
  (flush file_system_' filename (new file_system_ filename parseContents).1).2 = [] →
  written (flush file_system_' filename (new file_system_ filename parseContents).1).1
  = if fileExists file_system_ filename
    then written (flat_map flush_entry
                    (parseContents (fileReadToEnd file_system_ filename) []).2)
    else "".
Proof.
  intros Hok. rewrite (flush_succeeded _ _ _ Hok). simpl.
  rewrite written_app. simpl. rewrite string_app_nil_r.
  unfold new. destruct (fileExists file_system_ filename); simpl; [|reflexivity].
  destruct (parseContents (fileReadToEnd file_system_ filename) []) as [[|] store]; reflexivity.
Qed.

End FlushFormat.

Lemma flush_entry_self_delimiting_witness :
  ("k", "v") = ("k", "v") ∧ "tail" = "tail".
Proof.
  apply (flush_entry_self_delimiting ("k", "v") ("k", "v") "tail" "tail").
  reflexivity.
Defined.

Lemma flush_written_inj_witness : example_store = example_store.
Proof.
  apply (flush_written_inj (example_file_system true true) (example_file_system true true)
           "cache.kv" "cache.kv" example_store example_store); reflexivity.
Defined.

Lemma new_then_flush_witness :
  FileBasedKeyValueStore.written
    (FileBasedKeyValueStore.flush (example_file_system true true) "cache.kv"
       (FileBasedKeyValueStore.new (example_file_system true true) "cache.kv"
          (λ _ _, (false, example_store))).1).1
  = FileBasedKeyValueStore.written
      (flat_map FileBasedKeyValueStore.flush_entry example_store).
Proof.
  apply (new_then_flush (example_file_system true true) (example_file_system true true)
           "cache.kv" (λ _ _, (false, example_store))).
  reflexivity.
Defined.

(** The bytes of the example store: each field is its length in decimal,
    a line feed, and the field. *)
Example flush_example_store :
  FileBasedKeyValueStore.written
    (FileBasedKeyValueStore.flush (example_file_system true true) "cache.kv" example_store).1
  = ("7" ++ String FileBasedKeyValueStore.LF "alt-svc"
     ++ "7" ++ String FileBasedKeyValueStore.LF "h3=:443"
     ++ "2" ++ String FileBasedKeyValueStore.LF (String FileBasedKeyValueStore.LF "k")
     ++ "6" ++ String FileBasedKeyValueStore.LF "7 days")%string.
Proof. vm_compute. reflexivity. Qed.

Example flush_open_fails :
  FileBasedKeyValueStore.flush (example_file_system true false) "cache.kv" example_store
  = ([FileBasedKeyValueStore.file_open FileBasedKeyValueStore.DefaultFlags],
     [FileBasedKeyValueStore.mkLogRecord error "Failed to flush cache to file {}" "cache.kv"]).
Proof. reflexivity. Qed.

Example flush_no_file :
  FileBasedKeyValueStore.flush (example_file_system false false) "cache.kv" example_store
  = ([], [FileBasedKeyValueStore.mkLogRecord error "Failed to flush cache to file {}" "cache.kv"]).
Proof. reflexivity. Qed.
